(** * The irq_latency example VMM (examples/irq_latency/vmm.c)

    A shallow embedding of the three entry points the microkit runtime
    calls into this protection domain: [init] (boot), [notified]
    (interrupt forwarding) and [fault] (guest trap handling), together
    with the [serial_ack] callback handed to the virtual interrupt
    controller.

    The functions of libvmm and microkit that vmm.c calls are not part of
    this file of the repository.  They are collaborators: each one is a
    transition on an abstract collaborator state [E] that yields the value
    the C call returns.  Every call the VMM makes is recorded, in program
    order, in a list of events, so that statements about ordering and about
    "how many times" are statements about that list. *)

From Stdlib Require Import ZArith List Lia Bool String.
From stdpp Require Import gmap.
Import ListNotations.
Local Open Scope Z_scope.

(** ** Constants of vmm.c *)

Definition GUEST_RAM_SIZE : Z := 0x10000000.
Definition GUEST_DTB_VADDR : Z := 0x4f000000.
Definition GUEST_INIT_RAM_DISK_VADDR : Z := 0x4d000000.
Definition SERIAL_IRQ_CH : Z := 1.
Definition SERIAL_IRQ : Z := 33.

(** [NULL], the cookie given to [virq_register]. *)
Definition NULL : Z := 0.

(** [size_t], [uintptr_t] and [uint64_t] are 64 bits wide on aarch64. *)
Definition UINT64_MOD : Z := 2 ^ 64.

(** The period of the liveness log line in [fault]. *)
Definition FAULT_LOG_PERIOD : Z := 100000.

(** ** Values fixed at link time or by the runtime

    The extern arrays bounding the three guest images, the variable
    [guest_ram_vaddr] that microkit patches, the name of the protection
    domain, and the identifier of the boot virtual CPU (a macro of
    libvmm/guest.h).  Addresses are machine words held in [Z]. *)
Record platform : Type := Platform {
  microkit_name : string;
  guest_ram_vaddr : Z;
  _guest_kernel_image : Z;
  _guest_kernel_image_end : Z;
  _guest_dtb_image : Z;
  _guest_dtb_image_end : Z;
  _guest_initrd_image : Z;
  _guest_initrd_image_end : Z;
  GUEST_BOOT_VCPU_ID : Z
}.

(** ** Message-info words *)

Record microkit_msginfo : Type := MsgInfo {
  msg_label : Z;
  msg_count : Z
}.

(** Modelled from the spec: [microkit_msginfo_new] is declared in
    microkit.h, which is not among the sources.  The spec calls the reply
    built by [microkit_msginfo_new(0, 0)] an empty/zero reply payload:
    a message-info made of the label and the count it is given. *)
Definition microkit_msginfo_new (label count : Z) : microkit_msginfo :=
  {| msg_label := label; msg_count := count |}.

(** ** Events *)

(** The nine arguments of [linux_setup_images], in the order of the call. *)
Record image_args : Type := ImageArgs {
  ia_ram_start : Z;
  ia_kernel : Z;
  ia_kernel_size : Z;
  ia_dtb_src : Z;
  ia_dtb_dest : Z;
  ia_dtb_size : Z;
  ia_initrd_src : Z;
  ia_initrd_dest : Z;
  ia_initrd_size : Z
}.

(** The text of each logging call of vmm.c: one constructor per format
    string, carrying the values of its conversions. *)
Inductive log_line : Type :=
| Starting (name : string)
| InitialiseGuestImages
| FailedGuestImages
| InitialisingVGic
| FailedVGic
| AckingInterrupt
| StartLinuxGuest
| NotificationReceived (ch : Z)
| InjectingVirq (irq : Z)
| IrqDropped (irq : Z)
| UnexpectedChannel (ch : Z)
| HandledFaults (n : Z).

(** Function pointers the VMM gives away.  [&serial_ack] is the only one. *)
Inductive ack_fn : Type := serial_ack_ptr.

Inductive event : Type :=
| Log (l : log_line)                       (* LOG_VMM *)
| LogErr (l : log_line)                    (* LOG_VMM_ERR *)
| Printf (l : log_line)                    (* printf *)
| IrqAck (ch : Z)                          (* microkit_irq_ack *)
| SetupImages (a : image_args) (pc : Z)    (* linux_setup_images, its result *)
| ControllerInit (ok : bool)               (* virq_controller_init *)
| Register (vcpu irq : Z) (cb : ack_fn) (cookie : Z) (ok : bool)
| InjectCall (irq : Z)                     (* virq_inject entered *)
| InjectRet (ok : bool)                    (* virq_inject returned *)
| GuestStart (pc dtb initrd : Z) (ok : bool)
| FaultHandleCall (child : Z) (m : microkit_msginfo)
| FaultHandleRet (ok : bool).

(** ** Collaborators *)

(** One invocation, by the virtual interrupt controller, of an
    acknowledgment callback registered with it. *)
Record ack_call : Type := AckCall {
  ac_fn : ack_fn;
  ac_vcpu_id : Z;
  ac_irq : Z;
  ac_cookie : Z
}.

(** What a controller entry point that may run callbacks gives back: its
    boolean result and the callbacks it ran before returning. *)
Record outcome : Type := Outcome {
  oc_ok : bool;
  oc_acks : list ack_call
}.

(** The collaborators over their own state [E].  [virq_inject] and
    [fault_handle] are the entry points that run while a guest exists, when
    the controller delivers and retires virtual interrupts: they may call
    the registered callback any number of times. *)
Record collaborators (E : Type) : Type := Collaborators {
  linux_setup_images_step : image_args -> E -> Z * E;
  virq_controller_init_step : E -> bool * E;
  virq_register_step : Z -> Z -> ack_fn -> Z -> E -> bool * E;
  virq_inject_step : Z -> E -> outcome * E;
  guest_start_step : Z -> Z -> Z -> E -> bool * E;
  fault_handle_step : Z -> microkit_msginfo -> E -> outcome * E
}.
Arguments linux_setup_images_step {E}.
Arguments virq_controller_init_step {E}.
Arguments virq_register_step {E}.
Arguments virq_inject_step {E}.
Arguments guest_start_step {E}.
Arguments fault_handle_step {E}.

(** ** State of the protection domain *)

(** [count] is the static [uint64_t count] of vmm.c; [msginfo_mem] holds the
    message-info cells that callers pass by address ([reply_msginfo]);
    [ext] is the state of the collaborators. *)
Record World (E : Type) : Type := MkWorld {
  count : Z;
  msginfo_mem : gmap Z microkit_msginfo;
  ext : E
}.
Arguments MkWorld {E}.
Arguments count {E}.
Arguments msginfo_mem {E}.
Arguments ext {E}.

(** ** The monad: state passing, with the events emitted *)

Definition vmm (E A : Type) : Type := World E -> A * World E * list event.

Definition ret {E A} (a : A) : vmm E A := fun w => (a, w, []).

Definition bind {E A B} (m : vmm E A) (k : A -> vmm E B) : vmm E B :=
  fun w =>
    let '(a, w1, t1) := m w in
    let '(b, w2, t2) := k a w1 in
    (b, w2, t1 ++ t2).

Declare Scope vmm_scope.
Delimit Scope vmm_scope with vmm.
Notation "x <- c1 ;; c2" := (bind c1 (fun x => c2))
  (at level 100, c1 at next level, right associativity) : vmm_scope.
Notation "c1 ;; c2" := (bind c1 (fun _ => c2))
  (at level 100, right associativity) : vmm_scope.

Definition value {E A} (r : A * World E * list event) : A := fst (fst r).
Definition world {E A} (r : A * World E * list event) : World E := snd (fst r).
Definition events {E A} (r : A * World E * list event) : list event := snd r.

Definition emit {E} (e : event) : vmm E unit := fun w => (tt, w, [e]).

Definition with_ext {E} (w : World E) (e : E) : World E :=
  {| count := count w; msginfo_mem := msginfo_mem w; ext := e |}.

Section Vmm.

Context {E : Type}.
Variable env : collaborators E.
Variable plat : platform.

Local Open Scope vmm_scope.

(** *** Logging and the platform call *)

Definition LOG_VMM (l : log_line) : vmm E unit := emit (Log l).
Definition LOG_VMM_ERR (l : log_line) : vmm E unit := emit (LogErr l).
Definition printf (l : log_line) : vmm E unit := emit (Printf l).

Definition microkit_irq_ack (ch : Z) : vmm E unit := emit (IrqAck ch).

(** *** serial_ack (vmm.c, lines 42-49) *)

Definition serial_ack (vcpu_id irq cookie : Z) : vmm E unit :=
  microkit_irq_ack SERIAL_IRQ_CH.

(** Calling through a function pointer. *)
Definition call_ack (c : ack_call) : vmm E unit :=
  match ac_fn c with
  | serial_ack_ptr => serial_ack (ac_vcpu_id c) (ac_irq c) (ac_cookie c)
  end.

Fixpoint run_acks (cs : list ack_call) : vmm E unit :=
  match cs with
  | [] => ret tt
  | c :: cs' => call_ack c ;; run_acks cs'
  end.

(** *** Calls into the collaborators *)

Definition linux_setup_images (a : image_args) : vmm E Z :=
  fun w =>
    let r := linux_setup_images_step env a (ext w) in
    (fst r, with_ext w (snd r), [SetupImages a (fst r)]).

Definition virq_controller_init : vmm E bool :=
  fun w =>
    let r := virq_controller_init_step env (ext w) in
    (fst r, with_ext w (snd r), [ControllerInit (fst r)]).

Definition virq_register (vcpu irq : Z) (cb : ack_fn) (cookie : Z) : vmm E bool :=
  fun w =>
    let r := virq_register_step env vcpu irq cb cookie (ext w) in
    (fst r, with_ext w (snd r), [Register vcpu irq cb cookie (fst r)]).

Definition guest_start (pc dtb initrd : Z) : vmm E bool :=
  fun w =>
    let r := guest_start_step env pc dtb initrd (ext w) in
    (fst r, with_ext w (snd r), [GuestStart pc dtb initrd (fst r)]).

Definition enter_virq_inject (irq : Z) : vmm E outcome :=
  fun w =>
    let r := virq_inject_step env irq (ext w) in
    (fst r, with_ext w (snd r), [InjectCall irq]).

Definition virq_inject (irq : Z) : vmm E bool :=
  o <- enter_virq_inject irq ;;
  run_acks (oc_acks o) ;;
  emit (InjectRet (oc_ok o)) ;;
  ret (oc_ok o).

Definition enter_fault_handle (child : Z) (m : microkit_msginfo) : vmm E outcome :=
  fun w =>
    let r := fault_handle_step env child m (ext w) in
    (fst r, with_ext w (snd r), [FaultHandleCall child m]).

Definition fault_handle (child : Z) (m : microkit_msginfo) : vmm E bool :=
  o <- enter_fault_handle child m ;;
  run_acks (oc_acks o) ;;
  emit (FaultHandleRet (oc_ok o)) ;;
  ret (oc_ok o).

(** *** The static counter and stores through [reply_msginfo] *)

Definition incr_count : vmm E unit :=
  fun w =>
    (tt, {| count := (count w + 1) mod UINT64_MOD;
            msginfo_mem := msginfo_mem w;
            ext := ext w |}, []).

Definition read_count : vmm E Z := fun w => (count w, w, []).

Definition store_msginfo (p : Z) (m : microkit_msginfo) : vmm E unit :=
  fun w =>
    (tt, {| count := count w;
            msginfo_mem := <[p := m]> (msginfo_mem w);
            ext := ext w |}, []).

(** *** init (vmm.c, lines 51-91)

    The two early [return]s are the [then] branches; [success] of
    [virq_register] is bound and not read, as in the source. *)

Definition boot_images : image_args :=
  let kernel_size :=
    (_guest_kernel_image_end plat - _guest_kernel_image plat) mod UINT64_MOD in
  let dtb_size :=
    (_guest_dtb_image_end plat - _guest_dtb_image plat) mod UINT64_MOD in
  let initrd_size :=
    (_guest_initrd_image_end plat - _guest_initrd_image plat) mod UINT64_MOD in
  {| ia_ram_start := guest_ram_vaddr plat;
     ia_kernel := _guest_kernel_image plat;
     ia_kernel_size := kernel_size;
     ia_dtb_src := _guest_dtb_image plat;
     ia_dtb_dest := GUEST_DTB_VADDR;
     ia_dtb_size := dtb_size;
     ia_initrd_src := _guest_initrd_image plat;
     ia_initrd_dest := GUEST_INIT_RAM_DISK_VADDR;
     ia_initrd_size := initrd_size |}.

Definition init : vmm E unit :=
  LOG_VMM (Starting (microkit_name plat)) ;;
  LOG_VMM InitialiseGuestImages ;;
  kernel_pc <- linux_setup_images boot_images ;;
  if kernel_pc =? 0 then
    LOG_VMM_ERR FailedGuestImages ;;
    ret tt
  else
    LOG_VMM InitialisingVGic ;;
    success <- virq_controller_init ;;
    if negb success then
      LOG_VMM_ERR FailedVGic ;;
      ret tt
    else
      success <- virq_register (GUEST_BOOT_VCPU_ID plat) SERIAL_IRQ
                               serial_ack_ptr NULL ;;
      LOG_VMM AckingInterrupt ;;
      microkit_irq_ack SERIAL_IRQ_CH ;;
      LOG_VMM StartLinuxGuest ;;
      guest_start kernel_pc GUEST_DTB_VADDR GUEST_INIT_RAM_DISK_VADDR ;;
      ret tt.

(** *** notified (vmm.c, lines 93-108) *)

Definition notified (ch : Z) : vmm E unit :=
  if ch =? SERIAL_IRQ_CH then
    LOG_VMM (NotificationReceived SERIAL_IRQ_CH) ;;
    LOG_VMM (InjectingVirq SERIAL_IRQ) ;;
    success <- virq_inject SERIAL_IRQ ;;
    if negb success then LOG_VMM_ERR (IrqDropped SERIAL_IRQ) else ret tt
  else
    printf (UnexpectedChannel ch).

(** *** fault (vmm.c, lines 110-131)

    [count++] on a [uint64_t] is [incr_count]; the test of line 119 reads
    the incremented value. *)

Definition fault (child : Z) (msginfo : microkit_msginfo) (reply_msginfo : Z)
  : vmm E bool :=
  incr_count ;;
  n <- read_count ;;
  (if n mod FAULT_LOG_PERIOD =? 0 then LOG_VMM (HandledFaults n) else ret tt) ;;
  success <- fault_handle child msginfo ;;
  if success then
    store_msginfo reply_msginfo (microkit_msginfo_new 0 0) ;;
    ret true
  else
    ret false.

End Vmm.

(** ** Delivering a sequence of guest traps

    The runtime calls [fault] once per trapped exception; [deliver_faults]
    is that sequence of calls, one per element of the list, in order. *)

Record fault_call : Type := FaultCall {
  fc_child : Z;
  fc_msginfo : microkit_msginfo;
  fc_reply : Z
}.

Fixpoint deliver_faults {E} (env : collaborators E) (calls : list fault_call)
  : vmm E (list bool) :=
  match calls with
  | [] => ret []
  | c :: calls' =>
      (v <- fault env (fc_child c) (fc_msginfo c) (fc_reply c) ;;
       vs <- deliver_faults env calls' ;;
       ret (v :: vs))%vmm
  end.

(** ** Reading a list of events *)

Definition is_irq_ack (e : event) : bool :=
  match e with IrqAck _ => true | _ => false end.

Definition is_inject_call (e : event) : bool :=
  match e with InjectCall _ => true | _ => false end.

Definition is_controller_init (e : event) : bool :=
  match e with ControllerInit _ => true | _ => false end.

Definition is_register (e : event) : bool :=
  match e with Register _ _ _ _ _ => true | _ => false end.

Definition is_guest_start (e : event) : bool :=
  match e with GuestStart _ _ _ _ => true | _ => false end.

Definition is_error_line (e : event) : bool :=
  match e with LogErr _ | Printf _ => true | _ => false end.

Definition is_liveness_log (e : event) : bool :=
  match e with Log (HandledFaults _) => true | _ => false end.

Fixpoint count_events (p : event -> bool) (t : list event) : nat :=
  match t with
  | [] => O
  | e :: t' => if p e then S (count_events p t') else count_events p t'
  end.

(** The guest, as this protection domain sees it: unstarted until
    [guest_start] has been called. *)
Inductive guest_state : Type := Unstarted | Running.

Definition guest_after (t : list event) : guest_state :=
  match count_events is_guest_start t with
  | O => Unstarted
  | S _ => Running
  end.

(** The events the acknowledgment callbacks leave. *)
Definition ack_events (cs : list ack_call) : list event :=
  map (fun _ => IrqAck SERIAL_IRQ_CH) cs.

(** What [init] leaves behind up to and including the call of the image
    loader, which returned [pc]. *)
Definition boot_prologue (plat : platform) (pc : Z) : list event :=
  [Log (Starting (microkit_name plat));
   Log InitialiseGuestImages;
   SetupImages (boot_images plat) pc].

(** The lines a run printed, of all three kinds, in order. *)
Definition is_line (e : event) : bool :=
  match e with Log _ | LogErr _ | Printf _ => true | _ => false end.

Fixpoint lines (t : list event) : list event :=
  match t with
  | [] => []
  | e :: t' => if is_line e then e :: lines t' else lines t'
  end.

(** ** Sample collaborators and inputs

    Collaborators without a state of their own, answering every call with
    a fixed value. *)

Definition scripted (pc : Z) (gic reg start : bool) (inj fh : outcome)
  : collaborators unit :=
  {| linux_setup_images_step := fun _ e => (pc, e);
     virq_controller_init_step := fun e => (gic, e);
     virq_register_step := fun _ _ _ _ e => (reg, e);
     virq_inject_step := fun _ e => (inj, e);
     guest_start_step := fun _ _ _ e => (start, e);
     fault_handle_step := fun _ _ e => (fh, e) |}.

Definition sample_platform : platform :=
  {| microkit_name := "VMM";
     guest_ram_vaddr := 0x40000000;
     _guest_kernel_image := 0x200000;
     _guest_kernel_image_end := 0x201000;
     _guest_dtb_image := 0x300000;
     _guest_dtb_image_end := 0x300400;
     _guest_initrd_image := 0x400000;
     _guest_initrd_image_end := 0x400800;
     GUEST_BOOT_VCPU_ID := 0 |}.

Definition fresh_world : World unit :=
  {| count := 0; msginfo_mem := ∅; ext := tt |}.

Definition serial_callback : ack_call :=
  {| ac_fn := serial_ack_ptr; ac_vcpu_id := 0; ac_irq := SERIAL_IRQ;
     ac_cookie := NULL |}.

Definition quiet : outcome := {| oc_ok := true; oc_acks := [] |}.
Definition refused : outcome := {| oc_ok := false; oc_acks := [] |}.
Definition acked_once : outcome :=
  {| oc_ok := true; oc_acks := [serial_callback] |}.

Definition sample_entry : Z := 0x40080000.

Definition all_succeed : collaborators unit :=
  scripted sample_entry true true true quiet quiet.
Definition loader_fails : collaborators unit :=
  scripted 0 true true true quiet quiet.
Definition controller_fails : collaborators unit :=
  scripted sample_entry false true true quiet quiet.
Definition registration_fails : collaborators unit :=
  scripted sample_entry true false true quiet quiet.
Definition injection_refused : collaborators unit :=
  scripted sample_entry true true true refused quiet.
Definition ack_inside_injection : collaborators unit :=
  scripted sample_entry true true true acked_once quiet.
Definition dispatcher_fails : collaborators unit :=
  scripted sample_entry true true true quiet refused.

Definition sample_msginfo : microkit_msginfo :=
  {| msg_label := 6; msg_count := 0 |}.

Definition sample_call : fault_call :=
  {| fc_child := 0; fc_msginfo := sample_msginfo; fc_reply := 0x1000 |}.

(** A world whose counter holds the largest [uint64_t]. *)
Definition saturated_world : World unit :=
  {| count := UINT64_MOD - 1; msginfo_mem := ∅; ext := tt |}.

(** A world in which the reply cell already holds a message. *)
Definition world_with_reply : World unit :=
  {| count := 7; msginfo_mem := {[ 0x1000 := sample_msginfo ]}; ext := tt |}.

(** ** The entry points in the order the runtime calls them

    After [init] the runtime calls [notified] once per notification and
    [fault] once per guest trap.  [run_entries] is any such sequence of
    calls, in order; it yields, per call, the verdict of [fault] or nothing
    for [notified]. *)

Inductive entry_call : Type :=
| CallNotified (ch : Z)
| CallFault (f : fault_call).

Definition run_entry {E} (env : collaborators E) (c : entry_call)
  : vmm E (option bool) :=
  match c with
  | CallNotified ch => (notified env ch ;; ret None)%vmm
  | CallFault f =>
      (v <- fault env (fc_child f) (fc_msginfo f) (fc_reply f) ;;
       ret (Some v))%vmm
  end.

Fixpoint run_entries {E} (env : collaborators E) (cs : list entry_call)
  : vmm E (list (option bool)) :=
  match cs with
  | [] => ret []
  | c :: cs' =>
      (v <- run_entry env c ;;
       vs <- run_entries env cs' ;;
       ret (v :: vs))%vmm
  end.

Definition is_fault_entry (c : entry_call) : bool :=
  match c with CallFault _ => true | CallNotified _ => false end.

Definition is_serial_entry (c : entry_call) : bool :=
  match c with CallNotified ch => ch =? SERIAL_IRQ_CH | CallFault _ => false end.

Definition is_unknown_entry (c : entry_call) : bool :=
  match c with
  | CallNotified ch => negb (ch =? SERIAL_IRQ_CH)
  | CallFault _ => false
  end.

Fixpoint count_calls (p : entry_call -> bool) (cs : list entry_call) : nat :=
  match cs with
  | [] => O
  | c :: cs' => if p c then S (count_calls p cs') else count_calls p cs'
  end.

(** The addresses given as [reply_msginfo] in a sequence of calls. *)
Fixpoint reply_cells (cs : list entry_call) : list Z :=
  match cs with
  | [] => []
  | CallNotified _ :: cs' => reply_cells cs'
  | CallFault f :: cs' => fc_reply f :: reply_cells cs'
  end.

(** More ways to read a list of events. *)

Definition is_setup_images (e : event) : bool :=
  match e with SetupImages _ _ => true | _ => false end.

Definition is_fault_handle_call (e : event) : bool :=
  match e with FaultHandleCall _ _ => true | _ => false end.

Definition is_unexpected_line (e : event) : bool :=
  match e with Printf (UnexpectedChannel _) => true | _ => false end.

Definition is_drop_line (e : event) : bool :=
  match e with LogErr (IrqDropped _) => true | _ => false end.

Definition is_refused_injection (e : event) : bool :=
  match e with InjectRet false => true | _ => false end.

(** More sample collaborators and worlds. *)

Definition start_fails : collaborators unit :=
  scripted sample_entry true true false quiet quiet.

Definition acks_twice_in_dispatch : collaborators unit :=
  scripted sample_entry true true true refused
    {| oc_ok := true; oc_acks := [serial_callback; serial_callback] |}.

(** A platform whose kernel image symbols are in the wrong order. *)
Definition inverted_platform : platform :=
  {| microkit_name := "VMM";
     guest_ram_vaddr := 0x40000000;
     _guest_kernel_image := 0x201000;
     _guest_kernel_image_end := 0x200000;
     _guest_dtb_image := 0x300000;
     _guest_dtb_image_end := 0x300400;
     _guest_initrd_image := 0x400000;
     _guest_initrd_image_end := 0x400800;
     GUEST_BOOT_VCPU_ID := 0 |}.

Definition world_before_line : World unit :=
  {| count := 99999; msginfo_mem := ∅; ext := tt |}.

Definition sample_run : list entry_call :=
  [CallFault sample_call; CallNotified 1; CallNotified 9;
   CallFault sample_call].

(** * Properties *)

(** ** Bookkeeping lemmas *)

Lemma count_events_app p t1 t2 :
  count_events p (t1 ++ t2) = (count_events p t1 + count_events p t2)%nat.
Proof.
  induction t1 as [|e t1 IH]; simpl; [reflexivity|].
  destruct (p e); simpl; rewrite IH; reflexivity.
Qed.

Lemma count_events_ack_events p cs :
  count_events p (ack_events cs) =
  if p (IrqAck SERIAL_IRQ_CH) then length cs else O.
Proof.
  induction cs as [|c cs IH]; simpl.
  - destruct (p _); reflexivity.
  - fold (ack_events cs). rewrite IH. destruct (p _); reflexivity.
Qed.

Section Bookkeeping.

Context {E : Type}.
Variable env : collaborators E.

(** Running callbacks only acknowledges the serial channel: the state is
    as before and each callback leaves one [IrqAck]. *)
Lemma run_acks_spec cs :
  forall w : World E, run_acks cs w = (tt, w, ack_events cs).
Proof.
  induction cs as [|c cs IH]; intros w; [reflexivity|].
  simpl. unfold bind, call_ack. destruct (ac_fn c). simpl.
  rewrite IH. reflexivity.
Qed.

Lemma virq_inject_spec irq (w : World E) :
  virq_inject env irq w =
  let r := virq_inject_step env irq (ext w) in
  (oc_ok (fst r), with_ext w (snd r),
   InjectCall irq :: ack_events (oc_acks (fst r)) ++ [InjectRet (oc_ok (fst r))]).
Proof.
  unfold virq_inject, bind, enter_virq_inject, emit, ret. simpl.
  rewrite run_acks_spec. reflexivity.
Qed.

Lemma fault_handle_spec child m (w : World E) :
  fault_handle env child m w =
  let r := fault_handle_step env child m (ext w) in
  (oc_ok (fst r), with_ext w (snd r),
   FaultHandleCall child m :: ack_events (oc_acks (fst r))
     ++ [FaultHandleRet (oc_ok (fst r))]).
Proof.
  unfold fault_handle, bind, enter_fault_handle, emit, ret. simpl.
  rewrite run_acks_spec. reflexivity.
Qed.

End Bookkeeping.

(** ** Boot: [init] *)

Section Boot.

Context {E : Type}.
Variable env : collaborators E.
Variable plat : platform.

Ltac run_init :=
  unfold init, bind, LOG_VMM, LOG_VMM_ERR, microkit_irq_ack, emit, ret,
    linux_setup_images, virq_controller_init, virq_register, guest_start;
  simpl.

(** C3: when the image loader returns a zero entry point, [init] logs the
    failure and returns at once.  Nothing follows the loader's call but the
    error line: the interrupt controller is not initialised, nothing is
    registered, nothing is acknowledged, [guest_start] is not called, and
    the guest is left [Unstarted]. *)
Theorem init_stops_on_zero_entry (w : World E) (e1 : E) :
  linux_setup_images_step env (boot_images plat) (ext w) = (0, e1) ->
  let r := init env plat w in
  r = (tt, with_ext w e1, boot_prologue plat 0 ++ [LogErr FailedGuestImages])
  /\ count_events is_controller_init (events r) = O
  /\ count_events is_register (events r) = O
  /\ count_events is_irq_ack (events r) = O
  /\ count_events is_guest_start (events r) = O
  /\ guest_after (events r) = Unstarted.
Proof.
  intros Hload r.
  assert (Hr : r = (tt, with_ext w e1,
                    boot_prologue plat 0 ++ [LogErr FailedGuestImages])).
  { subst r. run_init. rewrite Hload. reflexivity. }
  rewrite Hr. repeat split; reflexivity.
Qed.

(** C5: when the image loader succeeds and [virq_controller_init] fails,
    [init] logs the failure and returns normally at that step: no
    registration, no acknowledgment and no [guest_start] follow, and the
    guest is left [Unstarted]. *)
Theorem init_stops_on_controller_failure (w : World E) (pc : Z) (e1 e2 : E) :
  pc <> 0 ->
  linux_setup_images_step env (boot_images plat) (ext w) = (pc, e1) ->
  virq_controller_init_step env e1 = (false, e2) ->
  let r := init env plat w in
  r = (tt, with_ext w e2,
       boot_prologue plat pc ++
       [Log InitialisingVGic; ControllerInit false; LogErr FailedVGic])
  /\ count_events is_register (events r) = O
  /\ count_events is_irq_ack (events r) = O
  /\ count_events is_guest_start (events r) = O
  /\ guest_after (events r) = Unstarted.
Proof.
  intros Hpc Hload Hgic r.
  assert (Hr : r = (tt, with_ext w e2,
                    boot_prologue plat pc ++
                    [Log InitialisingVGic; ControllerInit false;
                     LogErr FailedVGic])).
  { subst r. run_init. rewrite Hload. simpl.
    apply Z.eqb_neq in Hpc. rewrite Hpc. simpl.
    rewrite Hgic. reflexivity. }
  rewrite Hr. repeat split; reflexivity.
Qed.

(** The run of [init] once the image loader and the controller have both
    succeeded, whatever [virq_register] and [guest_start] answer. *)
Lemma init_past_controller (w : World E) (pc : Z) (e1 e2 : E) :
  pc <> 0 ->
  linux_setup_images_step env (boot_images plat) (ext w) = (pc, e1) ->
  virq_controller_init_step env e1 = (true, e2) ->
  let reg := virq_register_step env (GUEST_BOOT_VCPU_ID plat) SERIAL_IRQ
               serial_ack_ptr NULL e2 in
  let start := guest_start_step env pc GUEST_DTB_VADDR
                 GUEST_INIT_RAM_DISK_VADDR (snd reg) in
  init env plat w =
  (tt, with_ext w (snd start),
   boot_prologue plat pc ++
   [Log InitialisingVGic; ControllerInit true;
    Register (GUEST_BOOT_VCPU_ID plat) SERIAL_IRQ serial_ack_ptr NULL (fst reg);
    Log AckingInterrupt;
    IrqAck SERIAL_IRQ_CH;
    Log StartLinuxGuest;
    GuestStart pc GUEST_DTB_VADDR GUEST_INIT_RAM_DISK_VADDR (fst start)]).
Proof.
  intros Hpc Hload Hgic reg start.
  run_init. rewrite Hload. simpl.
  apply Z.eqb_neq in Hpc. rewrite Hpc. simpl.
  rewrite Hgic. reflexivity.
Qed.

(** C9: in a boot where image setup and controller initialisation succeed,
    [init] acknowledges the serial channel exactly once, after the call of
    [virq_register] and before the call of [guest_start]; the guest is
    started at the entry point the loader returned, with the DTB and initrd
    guest addresses as arguments. *)
Theorem init_acks_once_between_register_and_start
    (w : World E) (pc : Z) (e1 e2 : E) :
  pc <> 0 ->
  linux_setup_images_step env (boot_images plat) (ext w) = (pc, e1) ->
  virq_controller_init_step env e1 = (true, e2) ->
  let r := init env plat w in
  (exists reg_ok start_ok,
     events r =
     boot_prologue plat pc ++
     [Log InitialisingVGic; ControllerInit true;
      Register (GUEST_BOOT_VCPU_ID plat) SERIAL_IRQ serial_ack_ptr NULL reg_ok;
      Log AckingInterrupt;
      IrqAck SERIAL_IRQ_CH;
      Log StartLinuxGuest;
      GuestStart pc GUEST_DTB_VADDR GUEST_INIT_RAM_DISK_VADDR start_ok])
  /\ count_events is_irq_ack (events r) = 1%nat
  /\ count_events is_guest_start (events r) = 1%nat
  /\ guest_after (events r) = Running.
Proof.
  intros Hpc Hload Hgic r. subst r.
  rewrite (init_past_controller w pc e1 e2 Hpc Hload Hgic).
  split; [eexists _, _; reflexivity|].
  repeat split; reflexivity.
Qed.

(** C2, as the code has it: when [virq_register] fails, boot goes on.  The
    serial channel is acknowledged once, after the failed registration, and
    [guest_start] is called after that, at the loader's entry point. *)
Theorem init_continues_after_failed_registration
    (w : World E) (pc : Z) (e1 e2 e3 : E) :
  pc <> 0 ->
  linux_setup_images_step env (boot_images plat) (ext w) = (pc, e1) ->
  virq_controller_init_step env e1 = (true, e2) ->
  virq_register_step env (GUEST_BOOT_VCPU_ID plat) SERIAL_IRQ
    serial_ack_ptr NULL e2 = (false, e3) ->
  let r := init env plat w in
  (exists before between after_ start_ok,
     events r =
     before
     ++ Register (GUEST_BOOT_VCPU_ID plat) SERIAL_IRQ serial_ack_ptr NULL false
     :: between
     ++ IrqAck SERIAL_IRQ_CH
     :: after_
     ++ [GuestStart pc GUEST_DTB_VADDR GUEST_INIT_RAM_DISK_VADDR start_ok])
  /\ count_events is_irq_ack (events r) = 1%nat
  /\ guest_after (events r) = Running.
Proof.
  intros Hpc Hload Hgic Hreg r. subst r.
  rewrite (init_past_controller w pc e1 e2 Hpc Hload Hgic).
  rewrite Hreg. simpl.
  split; [|split; reflexivity].
  exists [Log (Starting (microkit_name plat)); Log InitialiseGuestImages;
          SetupImages (boot_images plat) pc; Log InitialisingVGic;
          ControllerInit true].
  exists [Log AckingInterrupt], [Log StartLinuxGuest].
  eexists. reflexivity.
Qed.

End Boot.

(** ** Interrupt forwarding: [notified] *)

Section Forwarding.

Context {E : Type}.
Variable env : collaborators E.

(** C1, as the code has it: on the serial channel [notified] does not
    acknowledge anything itself.  It logs, makes exactly one injection
    attempt for [SERIAL_IRQ], and logs a drop when the attempt fails.  The
    serial channel is acknowledged only by [serial_ack], once for each time
    the controller runs that callback inside the injection call, hence
    never before the attempt. *)
Theorem notified_serial_injects_once (w : World E) :
  let inj := virq_inject_step env SERIAL_IRQ (ext w) in
  let r := notified env SERIAL_IRQ_CH w in
  r = (tt, with_ext w (snd inj),
       [Log (NotificationReceived SERIAL_IRQ_CH);
        Log (InjectingVirq SERIAL_IRQ);
        InjectCall SERIAL_IRQ]
       ++ ack_events (oc_acks (fst inj))
       ++ InjectRet (oc_ok (fst inj))
       :: (if oc_ok (fst inj) then [] else [LogErr (IrqDropped SERIAL_IRQ)]))
  /\ count_events is_inject_call (events r) = 1%nat
  /\ count_events is_irq_ack (events r) = length (oc_acks (fst inj)).
Proof.
  intros inj r.
  assert (Hr : r = (tt, with_ext w (snd inj),
       [Log (NotificationReceived SERIAL_IRQ_CH);
        Log (InjectingVirq SERIAL_IRQ);
        InjectCall SERIAL_IRQ]
       ++ ack_events (oc_acks (fst inj))
       ++ InjectRet (oc_ok (fst inj))
       :: (if oc_ok (fst inj) then [] else [LogErr (IrqDropped SERIAL_IRQ)]))).
  { subst r inj. unfold notified. simpl.
    unfold bind, LOG_VMM, LOG_VMM_ERR, emit, ret. simpl.
    rewrite virq_inject_spec. simpl.
    destruct (oc_ok _); simpl; rewrite <- app_assoc; reflexivity. }
  rewrite Hr. unfold events. cbn [snd].
  split; [reflexivity|].
  rewrite !count_events_app, !count_events_ack_events.
  destruct (oc_ok (fst inj)); simpl; split; lia.
Qed.

(** C8: on any channel other than the serial one, [notified] prints the
    unexpected-channel line and does nothing else: no acknowledgment, no
    injection attempt, no change of state, and it returns normally. *)
Theorem notified_unknown_channel (ch : Z) (w : World E) :
  ch <> SERIAL_IRQ_CH ->
  let r := notified env ch w in
  r = (tt, w, [Printf (UnexpectedChannel ch)])
  /\ count_events is_irq_ack (events r) = O
  /\ count_events is_inject_call (events r) = O
  /\ count_events is_error_line (events r) = 1%nat.
Proof.
  intros Hch r.
  assert (Hr : r = (tt, w, [Printf (UnexpectedChannel ch)])).
  { subst r. unfold notified.
    apply Z.eqb_neq in Hch. rewrite Hch. reflexivity. }
  rewrite Hr. repeat split; reflexivity.
Qed.

End Forwarding.

(** ** Guest traps: [fault] *)

Section Faults.

Context {E : Type}.
Variable env : collaborators E.

(** One call of [fault], spelled out. *)
Lemma fault_spec child m p (w : World E) :
  let n := (count w + 1) mod UINT64_MOD in
  let fh := fault_handle_step env child m (ext w) in
  fault env child m p w =
  (oc_ok (fst fh),
   {| count := n;
      msginfo_mem := if oc_ok (fst fh)
                     then <[p := microkit_msginfo_new 0 0]> (msginfo_mem w)
                     else msginfo_mem w;
      ext := snd fh |},
   (if n mod FAULT_LOG_PERIOD =? 0 then [Log (HandledFaults n)] else [])
   ++ FaultHandleCall child m
   :: ack_events (oc_acks (fst fh)) ++ [FaultHandleRet (oc_ok (fst fh))]).
Proof.
  intros n fh. unfold fault, bind, incr_count, read_count, LOG_VMM, emit, ret.
  cbv beta iota. cbn [count]. fold n.
  destruct (n mod FAULT_LOG_PERIOD =? 0);
    cbv beta iota; rewrite fault_handle_spec;
    cbn [ext with_ext count msginfo_mem]; fold fh;
    destruct (oc_ok (fst fh)); unfold store_msginfo;
    cbn [app count msginfo_mem ext]; rewrite ?app_nil_r; reflexivity.
Qed.

(** C4: [fault] returns what the fault dispatcher reported.  On success
    that is true and the cell [reply_msginfo] designates holds
    [microkit_msginfo_new(0, 0)], the message with label 0 and count 0; on
    failure it is false and no message-info cell has changed. *)
Theorem fault_verdict_follows_dispatcher child m p (w : World E) :
  let ok := oc_ok (fst (fault_handle_step env child m (ext w))) in
  let r := fault env child m p w in
  value r = ok
  /\ if ok
     then msginfo_mem (world r) !! p = Some (microkit_msginfo_new 0 0)
          /\ microkit_msginfo_new 0 0 = {| msg_label := 0; msg_count := 0 |}
     else msginfo_mem (world r) = msginfo_mem w.
Proof.
  intros ok r. subst r. rewrite fault_spec. unfold value, world. cbn [fst snd].
  fold ok. split; [reflexivity|].
  destruct ok; cbn [msginfo_mem]; [|reflexivity].
  split; [apply lookup_insert_eq | reflexivity].
Qed.

(** C10: when the fault dispatcher reports failure, [fault] stores nothing:
    every message-info cell, the one [reply_msginfo] designates included,
    is as it was before the call. *)
Theorem fault_failure_keeps_reply child m p (w : World E) :
  oc_ok (fst (fault_handle_step env child m (ext w))) = false ->
  msginfo_mem (world (fault env child m p w)) = msginfo_mem w
  /\ msginfo_mem (world (fault env child m p w)) !! p = msginfo_mem w !! p.
Proof.
  intros Hfail. rewrite fault_spec. unfold world. cbn [fst snd msginfo_mem].
  rewrite Hfail. split; reflexivity.
Qed.

(** *** The counter over a sequence of traps *)

Lemma fault_count child m p (w : World E) :
  count (world (fault env child m p w)) = (count w + 1) mod UINT64_MOD.
Proof. rewrite fault_spec. reflexivity. Qed.

Lemma deliver_faults_cons c calls (w : World E) :
  let r1 := fault env (fc_child c) (fc_msginfo c) (fc_reply c) w in
  let r2 := deliver_faults env calls (world r1) in
  deliver_faults env (c :: calls) w =
  (value r1 :: value r2, world r2, events r1 ++ events r2).
Proof.
  intros r1 r2. cbn [deliver_faults]. unfold bind, ret. fold r1.
  unfold r2, world, value, events.
  destruct r1 as [[v1 w1] t1]. cbn [fst snd].
  destruct (deliver_faults env calls w1) as [[v2 w2] t2]. cbn [fst snd].
  rewrite app_nil_r. reflexivity.
Qed.

Lemma deliver_faults_app calls1 calls2 :
  forall w : World E,
  let r1 := deliver_faults env calls1 w in
  let r2 := deliver_faults env calls2 (world r1) in
  deliver_faults env (calls1 ++ calls2) w =
  (value r1 ++ value r2, world r2, events r1 ++ events r2).
Proof.
  induction calls1 as [|c calls1 IH]; intros w.
  - simpl. unfold ret, world, value, events. simpl.
    destruct (deliver_faults env calls2 w) as [[vs w'] t]. reflexivity.
  - cbn zeta. rewrite <- app_comm_cons, !deliver_faults_cons.
    rewrite IH. unfold world, value, events. cbn [fst snd].
    rewrite app_assoc. reflexivity.
Qed.

Lemma deliver_faults_count calls :
  forall w : World E,
  count (world (deliver_faults env calls w)) =
  if decide (calls = []) then count w
  else (count w + Z.of_nat (length calls)) mod UINT64_MOD.
Proof.
  induction calls as [|c calls IH]; intros w; [reflexivity|].
  destruct (decide (c :: calls = [])) as [Hd|_]; [discriminate Hd|].
  rewrite deliver_faults_cons. unfold world at 1. cbn [fst snd].
  rewrite IH, fault_count.
  destruct (decide (calls = [])) as [->|_].
  - reflexivity.
  - rewrite Zplus_mod_idemp_l. f_equal. cbn [length]. lia.
Qed.

End Faults.

(** ** The fault counter *)

Section FaultCounter.

Context {E : Type}.
Variable env : collaborators E.

(** [init] and [notified] do not touch [count]. *)
Lemma init_keeps_count plat (w : World E) :
  count (world (init env plat w)) = count w.
Proof.
  unfold init, bind, world, LOG_VMM, LOG_VMM_ERR, microkit_irq_ack, emit, ret,
    linux_setup_images, virq_controller_init, virq_register, guest_start.
  cbn [fst snd].
  destruct (_ =? 0); cbn [fst snd]; [reflexivity|].
  destruct (negb _); reflexivity.
Qed.

Lemma notified_keeps_count ch (w : World E) :
  count (world (notified env ch w)) = count w.
Proof.
  unfold notified. destruct (ch =? SERIAL_IRQ_CH); [|reflexivity].
  unfold bind, world, LOG_VMM, LOG_VMM_ERR, emit, ret. cbn [fst snd].
  rewrite virq_inject_spec. cbn [fst snd].
  destruct (negb _); reflexivity.
Qed.

(** Below 2^64 the counter after a run of traps is the counter before it
    plus the number of traps. *)
Lemma deliver_faults_count_exact calls (w : World E) :
  0 <= count w ->
  count w + Z.of_nat (length calls) < UINT64_MOD ->
  count (world (deliver_faults env calls w)) =
  count w + Z.of_nat (length calls).
Proof.
  intros Hlo Hhi. rewrite deliver_faults_count.
  destruct (decide (calls = [])) as [->|_].
  - cbn [length]. lia.
  - apply Z.mod_small. lia.
Qed.

(** C6: the fault counter goes up by exactly one on every call of [fault],
    whatever the verdict, so K calls raise it by exactly K; it never goes
    down and nothing resets it, [init] and [notified] leaving it as it is.
    This is for the runs the counter can count, those that keep it below
    2^64: from the initial 0, any run of fewer than 2^64 traps. *)
Theorem fault_counter_counts_invocations
    (calls : list fault_call) (w : World E) :
  0 <= count w ->
  count w + Z.of_nat (length calls) < UINT64_MOD ->
  let r := deliver_faults env calls w in
  count (world r) = count w + Z.of_nat (length calls)
  /\ (forall before c rest,
        calls = before ++ c :: rest ->
        count (world (deliver_faults env (before ++ [c]) w)) =
        count (world (deliver_faults env before w)) + 1)
  /\ (forall before rest,
        calls = before ++ rest ->
        count w <= count (world (deliver_faults env before w))
        /\ count (world (deliver_faults env before w)) <= count (world r))
  /\ (forall plat (w' : World E), count (world (init env plat w')) = count w')
  /\ (forall ch (w' : World E), count (world (notified env ch w')) = count w').
Proof.
  intros Hlo Hhi r. subst r.
  split; [apply deliver_faults_count_exact; assumption|].
  split.
  { intros before c rest Hsplit.
    assert (Hlen : Z.of_nat (length before) + 1 <= Z.of_nat (length calls)).
    { rewrite Hsplit, length_app. cbn [length]. lia. }
    rewrite !deliver_faults_count_exact; try assumption;
      rewrite ?length_app; cbn [length]; lia. }
  split.
  { intros before rest Hsplit.
    assert (Hlen : Z.of_nat (length before) <= Z.of_nat (length calls)).
    { rewrite Hsplit, length_app. lia. }
    rewrite !deliver_faults_count_exact; try assumption; lia. }
  split; [intros; apply init_keeps_count | intros; apply notified_keeps_count].
Qed.

(** *** The liveness line *)

Lemma fault_liveness child m p (w : World E) :
  count_events is_liveness_log (events (fault env child m p w)) =
  if count (world (fault env child m p w)) mod FAULT_LOG_PERIOD =? 0
  then 1%nat else O.
Proof.
  rewrite fault_spec. unfold events, world. cbn [fst snd count].
  rewrite count_events_app. cbn [count_events is_liveness_log].
  rewrite count_events_app, count_events_ack_events. cbn.
  destruct (_ =? 0); reflexivity.
Qed.

Lemma period_step (c : Z) :
  0 <= c ->
  (c + 1) / FAULT_LOG_PERIOD - c / FAULT_LOG_PERIOD =
  if (c + 1) mod FAULT_LOG_PERIOD =? 0 then 1 else 0.
Proof.
  intros Hc. unfold FAULT_LOG_PERIOD.
  destruct (Z.eqb_spec ((c + 1) mod 100000) 0) as [H0|H0];
    Z.div_mod_to_equations; lia.
Qed.

(** Without overflow, the liveness lines of a run are as many as the
    multiples of the period the counter passes. *)
Lemma deliver_faults_liveness calls :
  forall w : World E,
  0 <= count w ->
  count w + Z.of_nat (length calls) < UINT64_MOD ->
  Z.of_nat (count_events is_liveness_log (events (deliver_faults env calls w))) =
  (count w + Z.of_nat (length calls)) / FAULT_LOG_PERIOD
  - count w / FAULT_LOG_PERIOD.
Proof.
  induction calls as [|c calls IH]; intros w Hlo Hhi.
  - cbn. rewrite Z.add_0_r. lia.
  - rewrite deliver_faults_cons. unfold events at 1. cbn [fst snd].
    rewrite count_events_app, Nat2Z.inj_add.
    cbn [length] in Hhi. rewrite Nat2Z.inj_succ in Hhi.
    assert (Hn : count (world (fault env (fc_child c) (fc_msginfo c)
                                 (fc_reply c) w)) = count w + 1).
    { rewrite fault_count. apply Z.mod_small. lia. }
    rewrite IH by (rewrite Hn; lia).
    rewrite fault_liveness, Hn.
    pose proof (period_step (count w) Hlo) as Hstep.
    cbn [length]. rewrite Nat2Z.inj_succ.
    replace (count w + 1 + Z.of_nat (length calls))
      with (count w + Z.succ (Z.of_nat (length calls))) by lia.
    destruct ((count w + 1) mod FAULT_LOG_PERIOD =? 0); lia.
Qed.

(** C7: from a counter of zero, 100,000 calls of [fault] leave the counter
    at 100,000 and emit exactly one liveness line.  No proper prefix of the
    run emits one, so the line comes with the 100,000th call, and it reports
    100,000.  In every call the line is emitted exactly when the incremented
    counter is a multiple of 100,000. *)
Theorem hundred_thousand_faults_one_line (calls : list fault_call) (w : World E) :
  count w = 0 ->
  Z.of_nat (length calls) = 100000 ->
  let r := deliver_faults env calls w in
  count (world r) = 100000
  /\ count_events is_liveness_log (events r) = 1%nat
  /\ (forall before rest,
        calls = before ++ rest -> rest <> [] ->
        count_events is_liveness_log
          (events (deliver_faults env before w)) = O)
  /\ In (Log (HandledFaults 100000)) (events r)
  /\ (forall child m p (w' : World E),
        count_events is_liveness_log (events (fault env child m p w')) =
        if count (world (fault env child m p w')) mod 100000 =? 0
        then 1%nat else O).
Proof.
  intros Hzero Hlen r.
  assert (Hne : calls <> []) by (intros ->; discriminate).
  assert (Hcount : count (world r) = 100000).
  { subst r. rewrite deliver_faults_count, decide_False by exact Hne.
    rewrite Hzero, Hlen. reflexivity. }
  assert (Hprefix : forall before rest,
             calls = before ++ rest -> rest <> [] ->
             count_events is_liveness_log
               (events (deliver_faults env before w)) = O).
  { intros before rest Hsplit Hrest.
    assert (Hshort : Z.of_nat (length before) < 100000).
    { rewrite Hsplit, length_app in Hlen. destruct rest; [congruence|].
      cbn [length] in Hlen. lia. }
    apply Nat2Z.inj. rewrite deliver_faults_liveness.
    - rewrite Hzero. unfold FAULT_LOG_PERIOD. cbn [Z.add].
      rewrite Z.div_small by lia. reflexivity.
    - lia.
    - rewrite Hzero. unfold UINT64_MOD. lia. }
  split; [exact Hcount|]. split.
  { apply Nat2Z.inj. subst r. rewrite deliver_faults_liveness.
    - rewrite Hzero, Hlen. reflexivity.
    - lia.
    - rewrite Hzero, Hlen. reflexivity. }
  split; [exact Hprefix|]. split; [|intros; apply fault_liveness].
  destruct (exists_last Hne) as (before & c & Hsplit).
  subst r. rewrite Hsplit, deliver_faults_app. unfold events at 1. cbn [snd].
  apply in_or_app. right.
  rewrite deliver_faults_cons. unfold events at 1. cbn [snd].
  apply in_or_app. left.
  assert (Hbefore : count (world (deliver_faults env before w)) = 99999).
  { rewrite deliver_faults_count.
    rewrite Hsplit, length_app in Hlen. cbn [length] in Hlen.
    destruct (decide (before = [])) as [->|_].
    - cbn [length] in Hlen. lia.
    - rewrite Hzero. replace (Z.of_nat (length before)) with 99999 by lia.
      reflexivity. }
  rewrite fault_spec. unfold events. cbn [snd]. rewrite Hbefore.
  left. reflexivity.
Qed.

End FaultCounter.

(** * The properties at concrete collaborators *)

(** ** Boot *)

(** C3 at a loader that returns 0. *)
Lemma init_stops_on_zero_entry_witness :
  linux_setup_images_step loader_fails (boot_images sample_platform)
    (ext fresh_world) = (0, tt)
  /\ guest_after (events (init loader_fails sample_platform fresh_world))
     = Unstarted.
Proof.
  split; [reflexivity|].
  destruct (init_stops_on_zero_entry loader_fails sample_platform
              fresh_world tt eq_refl) as (_ & _ & _ & _ & _ & H).
  exact H.
Defined.

(** C5 at a controller whose initialisation fails. *)
Lemma init_stops_on_controller_failure_witness :
  sample_entry <> 0
  /\ virq_controller_init_step controller_fails tt = (false, tt)
  /\ count_events is_guest_start
       (events (init controller_fails sample_platform fresh_world)) = O.
Proof.
  assert (Hpc : sample_entry <> 0) by (unfold sample_entry; lia).
  split; [exact Hpc|]. split; [reflexivity|].
  destruct (init_stops_on_controller_failure controller_fails sample_platform
              fresh_world sample_entry tt tt Hpc eq_refl eq_refl)
    as (_ & _ & _ & H & _).
  exact H.
Defined.

(** C9 at collaborators that all succeed. *)
Lemma init_acks_once_between_register_and_start_witness :
  sample_entry <> 0
  /\ virq_controller_init_step all_succeed tt = (true, tt)
  /\ count_events is_irq_ack
       (events (init all_succeed sample_platform fresh_world)) = 1%nat.
Proof.
  assert (Hpc : sample_entry <> 0) by (unfold sample_entry; lia).
  split; [exact Hpc|]. split; [reflexivity|].
  destruct (init_acks_once_between_register_and_start all_succeed
              sample_platform fresh_world sample_entry tt tt
              Hpc eq_refl eq_refl) as (_ & H & _).
  exact H.
Defined.

(** C2, as stated, fails: with a registration that fails, [init] prints no
    error line at all, and the lines it prints are those of a boot whose
    registration succeeded. *)
Lemma init_failed_registration_not_logged :
  let t := events (init registration_fails sample_platform fresh_world) in
  In (Register 0 SERIAL_IRQ serial_ack_ptr NULL false) t
  /\ count_events is_error_line t = O
  /\ lines t = lines (events (init all_succeed sample_platform fresh_world)).
Proof.
  cbv zeta. split; [|split; reflexivity].
  cbn. do 5 right. left. reflexivity.
Qed.

(** C2, as the code has it, at a registration that fails. *)
Lemma init_continues_after_failed_registration_witness :
  sample_entry <> 0
  /\ virq_register_step registration_fails
       (GUEST_BOOT_VCPU_ID sample_platform) SERIAL_IRQ serial_ack_ptr NULL tt
     = (false, tt)
  /\ guest_after (events (init registration_fails sample_platform fresh_world))
     = Running.
Proof.
  assert (Hpc : sample_entry <> 0) by (unfold sample_entry; lia).
  split; [exact Hpc|]. split; [reflexivity|].
  destruct (init_continues_after_failed_registration registration_fails
              sample_platform fresh_world sample_entry tt tt tt
              Hpc eq_refl eq_refl eq_refl) as (_ & _ & H).
  exact H.
Defined.

(** ** Interrupt forwarding *)

(** C1, as stated, fails.  When the controller refuses the injection
    without running the callback, a notification on the serial channel
    acknowledges nothing; when the controller runs the callback once, the
    one acknowledgment comes after the injection call has been entered. *)
Lemma notified_serial_ack_not_before_injection :
  count_events is_irq_ack
    (events (notified injection_refused SERIAL_IRQ_CH fresh_world)) <> 1%nat
  /\ events (notified ack_inside_injection SERIAL_IRQ_CH fresh_world) =
     [Log (NotificationReceived SERIAL_IRQ_CH);
      Log (InjectingVirq SERIAL_IRQ);
      InjectCall SERIAL_IRQ;
      IrqAck SERIAL_IRQ_CH;
      InjectRet true]
  /\ ~ (exists before rest,
          events (notified ack_inside_injection SERIAL_IRQ_CH fresh_world) =
          before ++ InjectCall SERIAL_IRQ :: rest
          /\ count_events is_irq_ack before = 1%nat).
Proof.
  split; [cbn; discriminate|]. split; [reflexivity|].
  intros (before & rest & Hsplit & Hack).
  cbn in Hsplit.
  destruct before as [|e1 [|e2 [|e3 before]]]; cbn in Hsplit;
    try discriminate Hsplit.
  - injection Hsplit as <- <- _. cbn in Hack. discriminate.
  - injection Hsplit as <- <- _ Htail.
    destruct before as [|e4 [|e5 before]]; cbn in Htail;
      try discriminate Htail.
    injection Htail as _ _ Htail.
    destruct before; discriminate.
Qed.

(** C8 at channel 2. *)
Lemma notified_unknown_channel_witness :
  2 <> SERIAL_IRQ_CH
  /\ notified all_succeed 2 fresh_world =
     (tt, fresh_world, [Printf (UnexpectedChannel 2)]).
Proof.
  assert (Hch : 2 <> SERIAL_IRQ_CH) by (unfold SERIAL_IRQ_CH; lia).
  split; [exact Hch|].
  destruct (notified_unknown_channel all_succeed 2 fresh_world Hch)
    as (H & _).
  exact H.
Defined.

(** ** Guest traps *)

(** C10 at a dispatcher that fails, with a message already in the reply
    cell: the message is still there after the call. *)
Lemma fault_failure_keeps_reply_witness :
  oc_ok (fst (fault_handle_step dispatcher_fails 0 sample_msginfo
                (ext world_with_reply))) = false
  /\ msginfo_mem (world (fault dispatcher_fails 0 sample_msginfo 0x1000
                           world_with_reply)) !! 0x1000
     = Some sample_msginfo.
Proof.
  split; [reflexivity|].
  destruct (fault_failure_keeps_reply dispatcher_fails 0 sample_msginfo 0x1000
              world_with_reply eq_refl) as (_ & H).
  rewrite H. apply lookup_singleton_eq.
Defined.

(** C6 at three traps, each with a failing verdict, from the initial
    counter. *)
Lemma fault_counter_counts_invocations_witness :
  0 <= count fresh_world
  /\ count fresh_world
     + Z.of_nat (length [sample_call; sample_call; sample_call]) < UINT64_MOD
  /\ count (world (deliver_faults dispatcher_fails
                     [sample_call; sample_call; sample_call] fresh_world))
     = 3.
Proof.
  assert (Hlo : 0 <= count fresh_world) by (cbn; lia).
  assert (Hhi : count fresh_world
                + Z.of_nat (length [sample_call; sample_call; sample_call])
                < UINT64_MOD) by (unfold UINT64_MOD; cbn; lia).
  split; [exact Hlo|]. split; [exact Hhi|].
  destruct (fault_counter_counts_invocations dispatcher_fails
              [sample_call; sample_call; sample_call] fresh_world Hlo Hhi)
    as (H & _).
  rewrite H. reflexivity.
Defined.

(** C7 at 100,000 identical traps. *)
Lemma hundred_thousand_faults_one_line_witness :
  let calls := repeat sample_call (Z.to_nat 100000) in
  count fresh_world = 0
  /\ Z.of_nat (length calls) = 100000
  /\ count_events is_liveness_log
       (events (deliver_faults all_succeed calls fresh_world)) = 1%nat.
Proof.
  intros calls.
  assert (Hlen : Z.of_nat (length calls) = 100000)
    by (subst calls; rewrite repeat_length; reflexivity).
  split; [reflexivity|]. split; [exact Hlen|].
  destruct (hundred_thousand_faults_one_line all_succeed calls fresh_world
              eq_refl Hlen) as (_ & H & _).
  exact H.
Defined.

(** * Further properties of the entry points *)

(** ** Every run of [init] and [notified], spelled out *)

Section EntryPoints.

Context {E : Type}.
Variable env : collaborators E.

(** The three ways [init] can end, by what the image loader and the
    controller answer. *)
Lemma init_spec plat (w : World E) :
  let load := linux_setup_images_step env (boot_images plat) (ext w) in
  let gic := virq_controller_init_step env (snd load) in
  let reg := virq_register_step env (GUEST_BOOT_VCPU_ID plat) SERIAL_IRQ
               serial_ack_ptr NULL (snd gic) in
  let start := guest_start_step env (fst load) GUEST_DTB_VADDR
                 GUEST_INIT_RAM_DISK_VADDR (snd reg) in
  init env plat w =
  if fst load =? 0 then
    (tt, with_ext w (snd load),
     boot_prologue plat (fst load) ++ [LogErr FailedGuestImages])
  else if fst gic then
    (tt, with_ext w (snd start),
     boot_prologue plat (fst load) ++
     [Log InitialisingVGic; ControllerInit true;
      Register (GUEST_BOOT_VCPU_ID plat) SERIAL_IRQ serial_ack_ptr NULL
        (fst reg);
      Log AckingInterrupt;
      IrqAck SERIAL_IRQ_CH;
      Log StartLinuxGuest;
      GuestStart (fst load) GUEST_DTB_VADDR GUEST_INIT_RAM_DISK_VADDR
        (fst start)])
  else
    (tt, with_ext w (snd gic),
     boot_prologue plat (fst load) ++
     [Log InitialisingVGic; ControllerInit false; LogErr FailedVGic]).
Proof.
  intros load gic reg start.
  unfold init, bind, LOG_VMM, LOG_VMM_ERR, microkit_irq_ack, emit, ret,
    linux_setup_images, virq_controller_init, virq_register, guest_start.
  cbv beta iota zeta. fold load.
  destruct (fst load =? 0); [reflexivity|].
  cbn [ext with_ext]. fold gic.
  destruct (fst gic) eqn:Hgic; cbn [negb]; cbv beta iota; cbn [ext with_ext].
  - reflexivity.
  - reflexivity.
Qed.

(** The two ways [notified] can go, by the channel. *)
Lemma notified_spec ch (w : World E) :
  let inj := virq_inject_step env SERIAL_IRQ (ext w) in
  notified env ch w =
  if ch =? SERIAL_IRQ_CH then
    (tt, with_ext w (snd inj),
     [Log (NotificationReceived SERIAL_IRQ_CH);
      Log (InjectingVirq SERIAL_IRQ);
      InjectCall SERIAL_IRQ]
     ++ ack_events (oc_acks (fst inj))
     ++ InjectRet (oc_ok (fst inj))
     :: (if oc_ok (fst inj) then [] else [LogErr (IrqDropped SERIAL_IRQ)]))
  else
    (tt, w, [Printf (UnexpectedChannel ch)]).
Proof.
  intros inj. unfold notified.
  destruct (ch =? SERIAL_IRQ_CH); [|reflexivity].
  unfold bind, LOG_VMM, LOG_VMM_ERR, emit, ret. cbv beta iota.
  rewrite virq_inject_spec. cbv zeta. fold inj.
  destruct (oc_ok (fst inj)); cbn [negb]; cbv beta iota; cbn [app];
    rewrite <- app_assoc; reflexivity.
Qed.

End EntryPoints.

(** ** More on [serial_ack] and [init] *)

Section BootFurther.

Context {E : Type}.
Variable env : collaborators E.

(** X1: [serial_ack] ignores its three arguments.  Whatever virtual CPU,
    interrupt number and cookie the controller calls it with, and however
    often, each call acknowledges channel [SERIAL_IRQ_CH] once and changes
    nothing in the state of the VMM. *)
Theorem serial_ack_ignores_arguments (cs : list ack_call) (w : World E) :
  run_acks cs w = (tt, w, repeat (IrqAck SERIAL_IRQ_CH) (length cs)).
Proof.
  rewrite run_acks_spec. f_equal. unfold ack_events.
  induction cs as [|c cs IH]; [reflexivity|].
  cbn [map length repeat]. rewrite IH. reflexivity.
Qed.

(** X2: how [init] ends is decided by the image loader and the controller
    alone.  The guest is started exactly when the loader returns a non-zero
    entry point and [virq_controller_init] succeeds; in that case [init]
    acknowledges the serial channel once and prints no error line, and
    otherwise it acknowledges nothing and prints exactly one error line.
    What [virq_register] and [guest_start] return has no part in it. *)
Theorem init_outcome plat (w : World E) :
  let load := linux_setup_images_step env (boot_images plat) (ext w) in
  let gic := virq_controller_init_step env (snd load) in
  let started := negb (fst load =? 0) && fst gic in
  let t := events (init env plat w) in
  guest_after t = (if started then Running else Unstarted)
  /\ count_events is_guest_start t = (if started then 1 else 0)%nat
  /\ count_events is_irq_ack t = (if started then 1 else 0)%nat
  /\ count_events is_error_line t = (if started then 0 else 1)%nat.
Proof.
  intros load gic started t. subst t started.
  rewrite init_spec. cbv zeta. fold load. fold gic.
  destruct (fst load =? 0); [repeat split; reflexivity|].
  destruct (fst gic); repeat split; reflexivity.
Qed.

(** X3: [init] always begins the same way: two log lines, then one call
    of [linux_setup_images] with the arguments computed from the image
    bounds, before any other collaborator is called.  It calls the loader
    only once, and it never injects an interrupt or dispatches a fault. *)
Theorem init_calls_loader_first plat (w : World E) :
  let load := linux_setup_images_step env (boot_images plat) (ext w) in
  exists rest,
    events (init env plat w) =
    Log (Starting (microkit_name plat))
    :: Log InitialiseGuestImages
    :: SetupImages (boot_images plat) (fst load)
    :: rest
    /\ count_events is_setup_images rest = O
    /\ count_events is_inject_call rest = O
    /\ count_events is_fault_handle_call rest = O.
Proof.
  intros load. rewrite init_spec. cbv zeta. fold load.
  destruct (fst load =? 0);
    [|destruct (fst (virq_controller_init_step env (snd load)))];
    eexists; (split; [reflexivity|]); repeat split; reflexivity.
Qed.

(** X4: [init] does not look at what [guest_start] returns.  When the
    loader and the controller succeed and [guest_start] reports failure,
    [init] still returns normally, having printed no error line. *)
Theorem init_ignores_guest_start_result plat (w : World E) :
  let load := linux_setup_images_step env (boot_images plat) (ext w) in
  let gic := virq_controller_init_step env (snd load) in
  let reg := virq_register_step env (GUEST_BOOT_VCPU_ID plat) SERIAL_IRQ
               serial_ack_ptr NULL (snd gic) in
  let start := guest_start_step env (fst load) GUEST_DTB_VADDR
                 GUEST_INIT_RAM_DISK_VADDR (snd reg) in
  fst load <> 0 ->
  fst gic = true ->
  fst start = false ->
  let r := init env plat w in
  world r = with_ext w (snd start)
  /\ In (GuestStart (fst load) GUEST_DTB_VADDR GUEST_INIT_RAM_DISK_VADDR false)
        (events r)
  /\ count_events is_error_line (events r) = O.
Proof.
  intros load gic reg start Hpc Hgic Hstart r. subst r.
  rewrite init_spec. cbv zeta. fold load. fold gic. fold reg. fold start.
  apply Z.eqb_neq in Hpc. rewrite Hpc, Hgic, Hstart.
  split; [reflexivity|]. split; [|reflexivity].
  unfold events. cbn. do 9 right. left. reflexivity.
Qed.

(** X5: the sizes [init] gives the image loader.  When each image's end
    address is not below its start and the image is shorter than 2^64
    bytes, the size passed is the byte length end - start; the DTB and the
    initial RAM disk always go to the fixed guest addresses 0x4f000000 and
    0x4d000000, and the RAM base is [guest_ram_vaddr]. *)
Theorem boot_images_sizes plat :
  0 <= _guest_kernel_image_end plat - _guest_kernel_image plat < UINT64_MOD ->
  0 <= _guest_dtb_image_end plat - _guest_dtb_image plat < UINT64_MOD ->
  0 <= _guest_initrd_image_end plat - _guest_initrd_image plat < UINT64_MOD ->
  let a := boot_images plat in
  ia_kernel_size a = _guest_kernel_image_end plat - _guest_kernel_image plat
  /\ ia_dtb_size a = _guest_dtb_image_end plat - _guest_dtb_image plat
  /\ ia_initrd_size a = _guest_initrd_image_end plat - _guest_initrd_image plat
  /\ ia_dtb_dest a = 0x4f000000
  /\ ia_initrd_dest a = 0x4d000000
  /\ ia_ram_start a = guest_ram_vaddr plat.
Proof.
  intros Hk Hd Hi a. subst a. unfold boot_images.
  cbn [ia_kernel_size ia_dtb_size ia_initrd_size ia_dtb_dest ia_initrd_dest
       ia_ram_start].
  rewrite !Z.mod_small by assumption.
  repeat split; reflexivity.
Qed.

(** X6: the sizes wrap.  An image whose end address lies below its start
    is given to the loader with the size 2^64 - (start - end), and every
    size passed lies in the range of [size_t]. *)
Theorem boot_images_inverted_bounds plat :
  - UINT64_MOD < _guest_kernel_image_end plat - _guest_kernel_image plat < 0 ->
  let a := boot_images plat in
  ia_kernel_size a =
    UINT64_MOD - (_guest_kernel_image plat - _guest_kernel_image_end plat)
  /\ 0 <= ia_kernel_size a < UINT64_MOD
  /\ 0 <= ia_dtb_size a < UINT64_MOD
  /\ 0 <= ia_initrd_size a < UINT64_MOD.
Proof.
  intros Hk a. subst a. unfold boot_images.
  cbn [ia_kernel_size ia_dtb_size ia_initrd_size].
  assert (Hm : 0 < UINT64_MOD) by (unfold UINT64_MOD; lia).
  split.
  - symmetry. apply Z.mod_unique with (q := -1); lia.
  - repeat split; apply Z.mod_pos_bound; exact Hm.
Qed.

(** X7: [init] and [notified] change nothing of the VMM's own state: the
    fault counter and every message-info cell are as before, only the
    collaborators' state moves on. *)
Theorem init_and_notified_keep_vmm_state plat ch (w : World E) :
  (exists e, world (init env plat w) = with_ext w e)
  /\ (exists e, world (notified env ch w) = with_ext w e)
  /\ msginfo_mem (world (init env plat w)) = msginfo_mem w
  /\ msginfo_mem (world (notified env ch w)) = msginfo_mem w.
Proof.
  assert (Hi : exists e, world (init env plat w) = with_ext w e).
  { rewrite init_spec. cbv zeta.
    destruct (_ =? 0); [|destruct (fst _)]; eexists; reflexivity. }
  assert (Hn : exists e, world (notified env ch w) = with_ext w e).
  { rewrite notified_spec. cbv zeta.
    destruct (ch =? SERIAL_IRQ_CH); [eexists; reflexivity|].
    exists (ext w). destruct w. reflexivity. }
  split; [exact Hi|]. split; [exact Hn|].
  destruct Hi as [e1 ->], Hn as [e2 ->]. split; reflexivity.
Qed.

End BootFurther.

(** ** Sequences of calls to [notified] and [fault] *)

Section Runs.

Context {E : Type}.
Variable env : collaborators E.

Lemma run_entry_notified ch (w : World E) :
  run_entry env (CallNotified ch) w =
  (None, world (notified env ch w), events (notified env ch w)).
Proof.
  unfold run_entry, bind, ret, world, events.
  destruct (notified env ch w) as [[u w1] t1]. cbn [fst snd].
  rewrite app_nil_r. reflexivity.
Qed.

Lemma run_entry_fault f (w : World E) :
  let r := fault env (fc_child f) (fc_msginfo f) (fc_reply f) w in
  run_entry env (CallFault f) w = (Some (value r), world r, events r).
Proof.
  intros r. unfold run_entry, bind, ret, value, world, events. fold r.
  destruct r as [[v w1] t1]. cbn [fst snd].
  rewrite app_nil_r. reflexivity.
Qed.

Lemma run_entries_cons c cs (w : World E) :
  let r1 := run_entry env c w in
  let r2 := run_entries env cs (world r1) in
  run_entries env (c :: cs) w =
  (value r1 :: value r2, world r2, events r1 ++ events r2).
Proof.
  intros r1 r2. cbn [run_entries]. unfold bind, ret. fold r1.
  unfold r2, world, value, events.
  destruct r1 as [[v1 w1] t1]. cbn [fst snd].
  destruct (run_entries env cs w1) as [[v2 w2] t2]. cbn [fst snd].
  rewrite app_nil_r. reflexivity.
Qed.

Lemma run_entries_events_cons c cs (w : World E) :
  events (run_entries env (c :: cs) w) =
  events (run_entry env c w)
  ++ events (run_entries env cs (world (run_entry env c w))).
Proof. rewrite run_entries_cons. reflexivity. Qed.

Lemma run_entries_world_cons c cs (w : World E) :
  world (run_entries env (c :: cs) w) =
  world (run_entries env cs (world (run_entry env c w))).
Proof. rewrite run_entries_cons. reflexivity. Qed.

(** The events of one call, by the kind of call. *)
Lemma run_entry_events c (w : World E) :
  events (run_entry env c w) =
  match c with
  | CallNotified ch =>
      if ch =? SERIAL_IRQ_CH then
        let inj := virq_inject_step env SERIAL_IRQ (ext w) in
        [Log (NotificationReceived SERIAL_IRQ_CH);
         Log (InjectingVirq SERIAL_IRQ);
         InjectCall SERIAL_IRQ]
        ++ ack_events (oc_acks (fst inj))
        ++ InjectRet (oc_ok (fst inj))
        :: (if oc_ok (fst inj) then [] else [LogErr (IrqDropped SERIAL_IRQ)])
      else [Printf (UnexpectedChannel ch)]
  | CallFault f =>
      let n := (count w + 1) mod UINT64_MOD in
      let fh := fault_handle_step env (fc_child f) (fc_msginfo f) (ext w) in
      (if n mod FAULT_LOG_PERIOD =? 0 then [Log (HandledFaults n)] else [])
      ++ FaultHandleCall (fc_child f) (fc_msginfo f)
      :: ack_events (oc_acks (fst fh))
      ++ [FaultHandleRet (oc_ok (fst fh))]
  end.
Proof.
  destruct c as [ch|f].
  - rewrite run_entry_notified. unfold events at 1. cbn [snd].
    rewrite notified_spec. cbv zeta.
    destruct (ch =? SERIAL_IRQ_CH); reflexivity.
  - rewrite run_entry_fault. unfold events at 1. cbn [snd].
    rewrite fault_spec. reflexivity.
Qed.

(** The counter and the message-info cells after one call. *)
Lemma run_entry_count c (w : World E) :
  count (world (run_entry env c w)) =
  if is_fault_entry c then (count w + 1) mod UINT64_MOD else count w.
Proof.
  destruct c as [ch|f]; cbn [is_fault_entry].
  - rewrite run_entry_notified. unfold world at 1. cbn [fst snd].
    apply notified_keeps_count.
  - rewrite run_entry_fault. unfold world at 1. cbn [fst snd].
    apply fault_count.
Qed.

Lemma run_entry_mem c (w : World E) :
  msginfo_mem (world (run_entry env c w)) =
  match c with
  | CallNotified _ => msginfo_mem w
  | CallFault f =>
      if oc_ok (fst (fault_handle_step env (fc_child f) (fc_msginfo f) (ext w)))
      then <[fc_reply f := microkit_msginfo_new 0 0]> (msginfo_mem w)
      else msginfo_mem w
  end.
Proof.
  destruct c as [ch|f].
  - rewrite run_entry_notified. unfold world at 1. cbn [fst snd].
    rewrite notified_spec. cbv zeta.
    destruct (ch =? SERIAL_IRQ_CH); reflexivity.
  - rewrite run_entry_fault. unfold world at 1. cbn [fst snd].
    rewrite fault_spec. reflexivity.
Qed.

(** A count that is the same for every call of a kind adds up over a
    run. *)
Lemma run_entries_count_events p (sel : entry_call -> bool) :
  (forall c (w : World E),
     count_events p (events (run_entry env c w)) =
     if sel c then 1%nat else O) ->
  forall cs (w : World E),
    count_events p (events (run_entries env cs w)) = count_calls sel cs.
Proof.
  intros Hone. induction cs as [|c cs IH]; intros w; [reflexivity|].
  rewrite run_entries_events_cons, count_events_app, Hone, IH.
  cbn [count_calls]. destruct (sel c); reflexivity.
Qed.

Lemma count_calls_none cs : count_calls (fun _ => false) cs = O.
Proof. induction cs as [|c cs IH]; [reflexivity | exact IH]. Qed.

(** Two counts that agree on every call agree on every run. *)
Lemma run_entries_count_agree p q :
  (forall c (w : World E),
     count_events p (events (run_entry env c w)) =
     count_events q (events (run_entry env c w))) ->
  forall cs (w : World E),
    count_events p (events (run_entries env cs w)) =
    count_events q (events (run_entries env cs w)).
Proof.
  intros Hone. induction cs as [|c cs IH]; intros w; [reflexivity|].
  rewrite run_entries_events_cons, !count_events_app, Hone, IH.
  reflexivity.
Qed.

End Runs.

Lemma count_events_cons p e t :
  count_events p (e :: t) =
  ((if p e then 1 else 0) + count_events p t)%nat.
Proof. cbn [count_events]. destruct (p e); reflexivity. Qed.

Lemma in_ack_events e cs : In e (ack_events cs) -> e = IrqAck SERIAL_IRQ_CH.
Proof.
  unfold ack_events. intros Hin. apply in_map_iff in Hin.
  destruct Hin as (c & <- & _). reflexivity.
Qed.

(** Counting in a list of events made of conses, appends and callback
    acknowledgments. *)
Ltac count_flat :=
  repeat (rewrite count_events_app || rewrite count_events_cons
          || rewrite count_events_ack_events);
  cbn; try lia.

(** Counting in the events of one call, whatever the collaborators did. *)
Ltac count_one_call :=
  let c := fresh "c" in
  let w0 := fresh "w" in
  intros c w0; rewrite !run_entry_events; destruct c as [?ch|?f];
  [ cbn [is_serial_entry is_unknown_entry is_fault_entry];
    destruct (_ =? SERIAL_IRQ_CH); cbv zeta;
    [destruct (oc_ok _)|]; count_flat
  | cbn [is_serial_entry is_unknown_entry is_fault_entry];
    cbv zeta; destruct (_ =? 0); count_flat ].

Section RunProperties.

Context {E : Type}.
Variable env : collaborators E.

(** X8: in any sequence of calls, every call reaches its collaborator
    once.  There are as many injection attempts as notifications on the
    serial channel, as many unexpected-channel lines as notifications on
    other channels, and as many dispatcher calls as traps: [fault] keeps no
    memory of an earlier failure and dispatches the next trap all the same.
    Each call yields its own result. *)
Theorem run_entries_one_collaborator_call_each
    (cs : list entry_call) (w : World E) :
  let r := run_entries env cs w in
  count_events is_inject_call (events r) = count_calls is_serial_entry cs
  /\ count_events is_unexpected_line (events r) =
     count_calls is_unknown_entry cs
  /\ count_events is_fault_handle_call (events r) =
     count_calls is_fault_entry cs
  /\ length (value r) = length cs.
Proof.
  cbv zeta. repeat split.
  - apply run_entries_count_events. count_one_call.
  - apply run_entries_count_events. count_one_call.
  - apply run_entries_count_events. count_one_call.
  - revert w. induction cs as [|c cs IH]; intros w; [reflexivity|].
    rewrite run_entries_cons. unfold value at 1. cbn [fst length].
    rewrite IH. reflexivity.
Qed.

(** X9: [notified] and [fault] never do what [init] does.  No sequence of
    calls to them loads images, initialises the controller, registers an
    interrupt or starts the guest. *)
Theorem handlers_never_boot (cs : list entry_call) (w : World E) :
  let t := events (run_entries env cs w) in
  count_events is_setup_images t = O
  /\ count_events is_controller_init t = O
  /\ count_events is_register t = O
  /\ count_events is_guest_start t = O.
Proof.
  cbv zeta.
  repeat split;
    rewrite <- (count_calls_none cs);
    apply run_entries_count_events; count_one_call.
Qed.

(** X10: the only channel the VMM ever acknowledges is [SERIAL_IRQ_CH],
    in [init] and in every sequence of calls to [notified] and [fault],
    whatever callbacks the controller runs. *)
Theorem acks_only_on_serial_channel
    plat (cs : list entry_call) (w w' : World E) (ch : Z) :
  In (IrqAck ch) (events (init env plat w) ++ events (run_entries env cs w')) ->
  ch = SERIAL_IRQ_CH.
Proof.
  intros Hin. apply in_app_or in Hin. destruct Hin as [Hin|Hin].
  - rewrite init_spec in Hin. cbv zeta in Hin.
    destruct (_ =? 0); [|destruct (fst _)];
      unfold events in Hin; cbn in Hin;
      repeat (destruct Hin as [Hin|Hin];
              [try discriminate Hin; try (injection Hin as <-; reflexivity)|]);
      contradiction.
  - revert w' Hin. induction cs as [|c cs IH]; intros w' Hin;
      [contradiction|].
    rewrite run_entries_events_cons in Hin.
    apply in_app_or in Hin. destruct Hin as [Hin|Hin]; [|exact (IH _ Hin)].
    rewrite run_entry_events in Hin. destruct c as [n|f]; cbv zeta in Hin.
    + destruct (n =? SERIAL_IRQ_CH).
      * apply in_app_or in Hin. destruct Hin as [Hin|Hin].
        { cbn in Hin. intuition discriminate. }
        apply in_app_or in Hin. destruct Hin as [Hin|Hin].
        { apply in_ack_events in Hin. injection Hin as ->. reflexivity. }
        destruct Hin as [Hin|Hin]; [discriminate Hin|].
        destruct (oc_ok _); cbn in Hin; intuition discriminate.
      * cbn in Hin. intuition discriminate.
    + apply in_app_or in Hin. destruct Hin as [Hin|Hin].
      { destruct (_ =? 0); cbn in Hin; intuition discriminate. }
      destruct Hin as [Hin|Hin]; [discriminate Hin|].
      apply in_app_or in Hin. destruct Hin as [Hin|Hin].
      { apply in_ack_events in Hin. injection Hin as ->. reflexivity. }
      cbn in Hin. intuition discriminate.
Qed.

(** X11: after boot the VMM acknowledges the serial interrupt through the
    callback only.  With a controller and a dispatcher that never run the
    registered callback, no sequence of calls to [notified] and [fault]
    acknowledges anything. *)
Theorem no_callback_no_acknowledgment (cs : list entry_call) (w : World E) :
  (forall irq e, oc_acks (fst (virq_inject_step env irq e)) = []) ->
  (forall child m e, oc_acks (fst (fault_handle_step env child m e)) = []) ->
  count_events is_irq_ack (events (run_entries env cs w)) = O.
Proof.
  intros Hinj Hfh.
  rewrite <- (count_calls_none cs).
  apply run_entries_count_events.
  intros c w0. rewrite run_entry_events. destruct c as [ch|f]; cbv zeta.
  - destruct (ch =? SERIAL_IRQ_CH); [|reflexivity].
    rewrite Hinj. destruct (oc_ok _); reflexivity.
  - rewrite Hfh. destruct (_ =? 0); reflexivity.
Qed.

(** X12: a dropped interrupt is logged exactly when an injection was
    refused.  In any sequence of calls there are as many "IRQ dropped"
    lines as returns of false from [virq_inject]. *)
Theorem drops_logged_as_often_as_refused (cs : list entry_call) (w : World E) :
  count_events is_drop_line (events (run_entries env cs w)) =
  count_events is_refused_injection (events (run_entries env cs w)).
Proof.
  apply run_entries_count_agree. count_one_call.
Qed.

End RunProperties.

(** ** The counter, the liveness line and the reply cells over a run *)

Section RunState.

Context {E : Type}.
Variable env : collaborators E.

Lemma run_entries_count cs :
  forall w : World E,
  0 <= count w < UINT64_MOD ->
  count (world (run_entries env cs w)) =
  (count w + Z.of_nat (count_calls is_fault_entry cs)) mod UINT64_MOD.
Proof.
  assert (Hm : 0 < UINT64_MOD) by (unfold UINT64_MOD; lia).
  induction cs as [|c cs IH]; intros w Hw.
  - cbn. rewrite Z.add_0_r, Z.mod_small; [reflexivity | exact Hw].
  - rewrite run_entries_world_cons, IH; rewrite run_entry_count.
    + cbn [count_calls]. destruct (is_fault_entry c); [|reflexivity].
      rewrite Zplus_mod_idemp_l. f_equal. lia.
    + destruct (is_fault_entry c); [apply Z.mod_pos_bound; exact Hm | exact Hw].
Qed.

(** X13: notifications do not disturb the fault counter.  In any
    interleaving of notifications and traps the counter ends at the initial
    value plus the number of traps, modulo 2^64, and stays in the range of
    [uint64_t]. *)
Theorem counter_counts_traps_only (cs : list entry_call) (w : World E) :
  0 <= count w < UINT64_MOD ->
  let r := run_entries env cs w in
  count (world r) =
    (count w + Z.of_nat (count_calls is_fault_entry cs)) mod UINT64_MOD
  /\ 0 <= count (world r) < UINT64_MOD.
Proof.
  intros Hw r. subst r. rewrite run_entries_count by exact Hw.
  split; [reflexivity|]. apply Z.mod_pos_bound. unfold UINT64_MOD. lia.
Qed.

(** X14: how many liveness lines a run prints.  As long as the counter
    does not wrap, a sequence of calls with K traps, started at counter c,
    prints as many liveness lines as there are multiples of 100,000 in
    (c, c + K]; notifications print none. *)
Theorem liveness_lines_of_a_run (cs : list entry_call) (w : World E) :
  0 <= count w ->
  count w + Z.of_nat (count_calls is_fault_entry cs) < UINT64_MOD ->
  Z.of_nat (count_events is_liveness_log (events (run_entries env cs w))) =
  (count w + Z.of_nat (count_calls is_fault_entry cs)) / FAULT_LOG_PERIOD
  - count w / FAULT_LOG_PERIOD.
Proof.
  revert w. induction cs as [|c cs IH]; intros w Hlo Hhi.
  - cbn. rewrite Z.add_0_r. lia.
  - rewrite run_entries_events_cons, count_events_app, Nat2Z.inj_add.
    cbn [count_calls] in Hhi |- *.
    destruct c as [ch|f]; cbn [is_fault_entry] in Hhi |- *.
    + assert (Hc : count (world (run_entry env (CallNotified ch) w)) = count w)
        by (rewrite run_entry_count; reflexivity).
      rewrite IH by (rewrite Hc; assumption). rewrite Hc.
      assert (Hnone : count_events is_liveness_log
                        (events (run_entry env (CallNotified ch) w)) = O).
      { rewrite run_entry_events.
        destruct (ch =? SERIAL_IRQ_CH); cbv zeta;
          [destruct (oc_ok _)|]; count_flat. }
      rewrite Hnone. lia.
    + rewrite Nat2Z.inj_succ in Hhi |- *.
      assert (Hc : count (world (run_entry env (CallFault f) w)) = count w + 1).
      { rewrite run_entry_count. cbn [is_fault_entry].
        apply Z.mod_small. lia. }
      rewrite IH by (rewrite Hc; lia). rewrite Hc.
      assert (Hone : count_events is_liveness_log
                       (events (run_entry env (CallFault f) w)) =
                     if (count w + 1) mod FAULT_LOG_PERIOD =? 0
                     then 1%nat else O).
      { rewrite run_entry_events. cbv zeta.
        rewrite (Z.mod_small (count w + 1)) by lia.
        destruct (_ =? 0); count_flat. }
      rewrite Hone.
      pose proof (period_step (count w) Hlo) as Hstep.
      replace (count w + 1 + Z.of_nat (count_calls is_fault_entry cs))
        with (count w + Z.succ (Z.of_nat (count_calls is_fault_entry cs)))
        by lia.
      destruct ((count w + 1) mod FAULT_LOG_PERIOD =? 0); lia.
Qed.

(** X15: what a liveness line reports.  Every "Handled n faults" line of
    any sequence of calls, from any state, carries a multiple of 100,000
    that is a value of the counter, below 2^64. *)
Theorem liveness_lines_report_multiples
    (cs : list entry_call) (w : World E) (n : Z) :
  In (Log (HandledFaults n)) (events (run_entries env cs w)) ->
  n mod 100000 = 0 /\ 0 <= n < UINT64_MOD.
Proof.
  revert w. induction cs as [|c cs IH]; intros w Hin; [contradiction|].
  rewrite run_entries_events_cons in Hin.
  apply in_app_or in Hin. destruct Hin as [Hin|Hin]; [|exact (IH _ Hin)].
  rewrite run_entry_events in Hin. destruct c as [ch|f]; cbv zeta in Hin.
  - exfalso. destruct (ch =? SERIAL_IRQ_CH).
    + apply in_app_or in Hin. destruct Hin as [Hin|Hin].
      { cbn in Hin. intuition discriminate. }
      apply in_app_or in Hin. destruct Hin as [Hin|Hin].
      { apply in_ack_events in Hin. discriminate Hin. }
      destruct Hin as [Hin|Hin]; [discriminate Hin|].
      destruct (oc_ok _); cbn in Hin; intuition discriminate.
    + cbn in Hin. intuition discriminate.
  - apply in_app_or in Hin. destruct Hin as [Hin|Hin].
    + destruct (Z.eqb_spec (((count w + 1) mod UINT64_MOD) mod FAULT_LOG_PERIOD) 0)
        as [Hmul|_]; [|contradiction].
      destruct Hin as [Hin|[]]. injection Hin as <-.
      split; [exact Hmul|]. apply Z.mod_pos_bound. unfold UINT64_MOD. lia.
    + exfalso. destruct Hin as [Hin|Hin]; [discriminate Hin|].
      apply in_app_or in Hin. destruct Hin as [Hin|Hin].
      { apply in_ack_events in Hin. discriminate Hin. }
      cbn in Hin. intuition discriminate.
Qed.

(** X16: the line at the wrap.  When the counter holds 2^64 - 1, the next
    call of [fault] takes it to 0 and, 0 being a multiple of 100,000,
    begins by printing the liveness line "Handled 0 faults", whatever the
    dispatcher then answers. *)
Theorem fault_wrap_prints_zero child m p (w : World E) :
  count w = UINT64_MOD - 1 ->
  let r := fault env child m p w in
  count (world r) = 0
  /\ exists rest, events r = Log (HandledFaults 0) :: rest.
Proof.
  intros Hmax r. subst r. rewrite fault_spec. cbv zeta.
  unfold world, events. cbn [fst snd count]. rewrite Hmax.
  replace (UINT64_MOD - 1 + 1) with UINT64_MOD by lia.
  rewrite Z_mod_same_full. split; [reflexivity|].
  eexists. reflexivity.
Qed.

(** X17: what a run can do to the message-info cells.  After any sequence
    of calls each cell either holds what it held before or holds
    [microkit_msginfo_new(0, 0)], the latter only at an address that some
    trap of the sequence gave as [reply_msginfo]; it is never emptied. *)
Theorem run_writes_only_zero_replies
    (cs : list entry_call) (w : World E) (q : Z) :
  let mem' := msginfo_mem (world (run_entries env cs w)) in
  mem' !! q = msginfo_mem w !! q
  \/ (In q (reply_cells cs) /\ mem' !! q = Some (microkit_msginfo_new 0 0)).
Proof.
  cbv zeta. revert w. induction cs as [|c cs IH]; intros w.
  - left. reflexivity.
  - rewrite run_entries_world_cons.
    destruct (IH (world (run_entry env c w))) as [Hsame|[Hin Hzero]].
    + rewrite Hsame, run_entry_mem. destruct c as [ch|f].
      * left. reflexivity.
      * destruct (oc_ok _); [|left; reflexivity].
        destruct (decide (fc_reply f = q)) as [<-|Hne].
        -- right. split; [left; reflexivity | apply lookup_insert_eq].
        -- left. apply lookup_insert_ne. exact Hne.
    + right. split; [|exact Hzero].
      destruct c as [ch|f]; [exact Hin | right; exact Hin].
Qed.

End RunState.

(** ** The only interrupt injected *)

Section Injection.

Context {E : Type}.
Variable env : collaborators E.

(** X18: the only virtual interrupt the VMM ever tries to inject is
    [SERIAL_IRQ], in any sequence of calls to [notified] and [fault]. *)
Theorem injects_only_serial_irq (cs : list entry_call) (w : World E) (irq : Z) :
  In (InjectCall irq) (events (run_entries env cs w)) ->
  irq = SERIAL_IRQ.
Proof.
  revert w. induction cs as [|c cs IH]; intros w Hin; [contradiction|].
  rewrite run_entries_events_cons in Hin.
  apply in_app_or in Hin. destruct Hin as [Hin|Hin]; [|exact (IH _ Hin)].
  rewrite run_entry_events in Hin. destruct c as [ch|f]; cbv zeta in Hin.
  - destruct (ch =? SERIAL_IRQ_CH).
    + apply in_app_or in Hin. destruct Hin as [Hin|Hin].
      { cbn in Hin. destruct Hin as [Hin|[Hin|[Hin|[]]]];
          try discriminate Hin. injection Hin as <-. reflexivity. }
      exfalso. apply in_app_or in Hin. destruct Hin as [Hin|Hin].
      { apply in_ack_events in Hin. discriminate Hin. }
      destruct Hin as [Hin|Hin]; [discriminate Hin|].
      destruct (oc_ok _); cbn in Hin; intuition discriminate.
    + exfalso. cbn in Hin. intuition discriminate.
  - exfalso. apply in_app_or in Hin. destruct Hin as [Hin|Hin].
    { destruct (_ =? 0); cbn in Hin; intuition discriminate. }
    destruct Hin as [Hin|Hin]; [discriminate Hin|].
    apply in_app_or in Hin. destruct Hin as [Hin|Hin].
    { apply in_ack_events in Hin. discriminate Hin. }
    cbn in Hin. intuition discriminate.
Qed.

End Injection.

(** ** The further properties at concrete collaborators *)

(** X4 at a [guest_start] that fails. *)
Lemma init_ignores_guest_start_result_witness :
  fst (guest_start_step start_fails sample_entry GUEST_DTB_VADDR
         GUEST_INIT_RAM_DISK_VADDR tt) = false
  /\ count_events is_error_line
       (events (init start_fails sample_platform fresh_world)) = O.
Proof.
  split; [reflexivity|].
  assert (Hpc : sample_entry <> 0) by (unfold sample_entry; lia).
  destruct (init_ignores_guest_start_result start_fails sample_platform
              fresh_world Hpc eq_refl eq_refl) as (_ & _ & H).
  exact H.
Defined.

(** X5 at images of 4 KiB, 1 KiB and 2 KiB. *)
Lemma boot_images_sizes_witness :
  ia_kernel_size (boot_images sample_platform) = 4096
  /\ ia_dtb_size (boot_images sample_platform) = 1024
  /\ ia_initrd_size (boot_images sample_platform) = 2048.
Proof.
  assert (Hk : 0 <= _guest_kernel_image_end sample_platform
                    - _guest_kernel_image sample_platform < UINT64_MOD)
    by (unfold UINT64_MOD; cbn; lia).
  assert (Hd : 0 <= _guest_dtb_image_end sample_platform
                    - _guest_dtb_image sample_platform < UINT64_MOD)
    by (unfold UINT64_MOD; cbn; lia).
  assert (Hi : 0 <= _guest_initrd_image_end sample_platform
                    - _guest_initrd_image sample_platform < UINT64_MOD)
    by (unfold UINT64_MOD; cbn; lia).
  destruct (boot_images_sizes sample_platform Hk Hd Hi)
    as (H1 & H2 & H3 & _).
  rewrite H1, H2, H3. repeat split; reflexivity.
Defined.

(** X6 at a kernel image whose end lies 4 KiB below its start. *)
Lemma boot_images_inverted_bounds_witness :
  _guest_kernel_image_end inverted_platform
    < _guest_kernel_image inverted_platform
  /\ ia_kernel_size (boot_images inverted_platform) = 18446744073709547520.
Proof.
  split; [cbn; lia|].
  assert (Hk : - UINT64_MOD < _guest_kernel_image_end inverted_platform
                               - _guest_kernel_image inverted_platform < 0)
    by (unfold UINT64_MOD; cbn; lia).
  destruct (boot_images_inverted_bounds inverted_platform Hk) as (H & _).
  rewrite H. reflexivity.
Defined.

(** X10 at a boot followed by a run whose dispatcher runs the callback. *)
Lemma acks_only_on_serial_channel_witness :
  In (IrqAck 1)
     (events (init acks_twice_in_dispatch sample_platform fresh_world)
      ++ events (run_entries acks_twice_in_dispatch sample_run fresh_world))
  /\ 1 = SERIAL_IRQ_CH.
Proof.
  assert (Hin : In (IrqAck 1)
     (events (init acks_twice_in_dispatch sample_platform fresh_world)
      ++ events (run_entries acks_twice_in_dispatch sample_run fresh_world))).
  { apply in_or_app. left. cbn. do 7 right. left. reflexivity. }
  split; [exact Hin|].
  exact (acks_only_on_serial_channel acks_twice_in_dispatch sample_platform
           sample_run fresh_world fresh_world 1 Hin).
Defined.

(** X11 at collaborators that run no callback. *)
Lemma no_callback_no_acknowledgment_witness :
  count_events is_irq_ack
    (events (run_entries injection_refused sample_run fresh_world)) = O.
Proof.
  apply (no_callback_no_acknowledgment injection_refused sample_run
           fresh_world).
  - intros irq e. reflexivity.
  - intros child m e. reflexivity.
Defined.

(** X13 at two traps and two notifications from a counter of 7. *)
Lemma counter_counts_traps_only_witness :
  0 <= count world_with_reply < UINT64_MOD
  /\ count (world (run_entries all_succeed sample_run world_with_reply)) = 9.
Proof.
  assert (Hr : 0 <= count world_with_reply < UINT64_MOD)
    by (unfold UINT64_MOD; cbn; lia).
  split; [exact Hr|].
  destruct (counter_counts_traps_only all_succeed sample_run world_with_reply
              Hr) as (H & _).
  rewrite H. reflexivity.
Defined.

(** X14 at two traps from a counter of 99,999: one line. *)
Lemma liveness_lines_of_a_run_witness :
  Z.of_nat (count_events is_liveness_log
              (events (run_entries all_succeed sample_run world_before_line)))
  = 1.
Proof.
  assert (Hlo : 0 <= count world_before_line) by (cbn; lia).
  assert (Hhi : count world_before_line
                + Z.of_nat (count_calls is_fault_entry sample_run)
                < UINT64_MOD) by (unfold UINT64_MOD; cbn; lia).
  rewrite (liveness_lines_of_a_run all_succeed sample_run world_before_line
             Hlo Hhi).
  reflexivity.
Defined.

(** X15 at the line printed when the counter reaches 100,000. *)
Lemma liveness_lines_report_multiples_witness :
  In (Log (HandledFaults 100000))
     (events (run_entries all_succeed sample_run world_before_line))
  /\ 100000 mod 100000 = 0.
Proof.
  assert (Hin : In (Log (HandledFaults 100000))
     (events (run_entries all_succeed sample_run world_before_line))).
  { vm_compute. left. reflexivity. }
  split; [exact Hin|].
  destruct (liveness_lines_report_multiples all_succeed sample_run
              world_before_line 100000 Hin) as (H & _).
  exact H.
Defined.

(** X16 at the largest counter. *)
Lemma fault_wrap_prints_zero_witness :
  count saturated_world = UINT64_MOD - 1
  /\ count (world (fault dispatcher_fails 0 sample_msginfo 0x1000
                     saturated_world)) = 0.
Proof.
  split; [reflexivity|].
  destruct (fault_wrap_prints_zero dispatcher_fails 0 sample_msginfo 0x1000
              saturated_world eq_refl) as (H & _).
  exact H.
Defined.

(** X18 at a notification on the serial channel. *)
Lemma injects_only_serial_irq_witness :
  In (InjectCall 33)
     (events (run_entries injection_refused sample_run fresh_world))
  /\ 33 = SERIAL_IRQ.
Proof.
  assert (Hin : In (InjectCall 33)
     (events (run_entries injection_refused sample_run fresh_world))).
  { vm_compute. do 4 right. left. reflexivity. }
  split; [exact Hin|].
  exact (injects_only_serial_irq injection_refused sample_run fresh_world 33
           Hin).
Defined.
